(** * The audio-to-document request pipeline (api/routes.py)

    A shallow embedding of the handler [audio_to_document] and of the
    collaborators it composes.  The handler is a Python coroutine that threads
    two mutable locals ([temp_path], [success]) through a
    [try / except / finally] block; it is embedded here in a state-and-exception
    monad whose state carries those locals, the temporary-file store and the
    trace of observable events (log lines, file-store operations, engine calls,
    metrics records).

    Exceptions are the instances of [Exception] a collaborator can raise,
    classified by the first [except] clause of the handler that matches them.
    Signals deriving from [BaseException] only (task cancellation, interpreter
    exit) are outside the model. *)

From Stdlib Require Import ZArith String List Lia.
From stdpp Require Import base option strings list gmap pretty.

Local Open Scope string_scope.
Local Open Scope Z_scope.

(** ** Python values *)

(** The values that reach log fields and the scoring dictionary. *)
Inductive pyval : Type :=
| PyNone
| PyBool (b : bool)
| PyInt (z : Z)
| PyStr (s : string).

(** [d.get(key, default)] on a dictionary. *)
Definition dict_get (d : gmap string pyval) (key : string) (dflt : pyval) : pyval :=
  default dflt (d !! key).

(** Truthiness of an optional path, as tested by [if temp_path:]. *)
Definition truthy (p : option string) : bool :=
  match p with
  | None => false
  | Some EmptyString => false
  | Some (String _ _) => true
  end.

(** ** Exceptions *)

Inductive exn : Type :=
| ValueError (msg : string)
| ExternalAPIError (msg : string)
| OtherException (msg : string).

(** [str(e)] *)
Definition str (e : exn) : string :=
  match e with
  | ValueError msg | ExternalAPIError msg | OtherException msg => msg
  end.

(** [HTTPException(status_code=..., detail=...)], the error envelope. *)
Record HTTPException : Type := mkHTTPException {
  status_code : Z;
  detail : string
}.

Inductive outcome (E A : Type) : Type :=
| Ok (a : A)
| Raise (e : E).
Arguments Ok {E A} a.
Arguments Raise {E A} e.

(** ** Floats

    [time.time()] returns a binary float; the handler subtracts two readings,
    rounds the difference with [round(_, 2)] and formats it with [:.2f].
    These builtins are kept abstract. *)
Class PyFloat (float : Type) : Type := {
  fsub : float → float → float;
  round_ndigits : float → Z → float;
  format_2f : float → string
}.

(** ** The upload *)

Record UploadFile : Type := mkUploadFile {
  filename : option string;
  content_type : option string;
  body : list Byte.byte
}.

Definition opt_str (o : option string) : pyval :=
  match o with
  | Some s => PyStr s
  | None => PyNone
  end.

Section Pipeline.

Context {float : Type} `{!PyFloat float}.

(** ** Responses (models.responses) *)

Record AnalysisResponse : Type := mkAnalysisResponse {
  analysis : string;
  pedagogical_score : pyval;
  score_reasoning : pyval;
  processing_time_seconds : float
}.

Record SuccessResponse : Type := mkSuccessResponse {
  request_id : string;
  data : AnalysisResponse
}.

(** ** Observable events *)

Inductive level : Type := INFO | ERROR.

Inductive event : Type :=
| Log (lvl : level) (message : string) (fields : list (string * pyval))
| ValidatorCalled (name : option string)
| TempFileCreated (path : string)
| EngineCalled (engine : string)
| OperationTracked (operation rid : string) (ok : bool)
| RetentionApplied (path : string)
| RequestRecorded (duration : float) (ok : bool) (rid : string).

(** ** Request state *)

Record state : Type := mkState {
  files : gmap string (list Byte.byte);
  trace : list event;
  clock : nat;
  temp_path : option string;
  success : bool
}.

Definition emit (e : event) (s : state) : state :=
  mkState (files s) (trace s ++ [e]) (clock s) (temp_path s) (success s).

Definition with_files (f : gmap string (list Byte.byte)) (s : state) : state :=
  mkState f (trace s) (clock s) (temp_path s) (success s).

(** ** The monad *)

Definition M (E A : Type) : Type := state → outcome E A * state.

Definition ret {E A} (a : A) : M E A := λ s, (Ok a, s).

Definition bind {E A B} (m : M E A) (k : A → M E B) : M E B :=
  λ s, match m s with
       | (Ok a, s') => k a s'
       | (Raise e, s') => (Raise e, s')
       end.

Definition raise {E A} (e : E) : M E A := λ s, (Raise e, s).

(** Lift the outcome of a collaborator that does not touch the state. *)
Definition lift {E A} (o : outcome E A) : M E A := λ s, (o, s).

Definition modify {E} (f : state → state) : M E unit := λ s, (Ok tt, f s).

Definition get {E A} (f : state → A) : M E A := λ s, (Ok (f s), s).

(** [try: body  except E as e: handler e] *)
Definition try_except {E E' A} (body : M E A) (handler : E → M E' A) : M E' A :=
  λ s, match body s with
       | (Ok a, s') => (Ok a, s')
       | (Raise e, s') => handler e s'
       end.

(** [try: body  finally: final].  The final block runs on every exit; an
    exception it raises replaces the pending outcome. *)
Definition try_finally {E A} (body : M E A) (final : M E unit) : M E A :=
  λ s, match body s with
       | (r, s') =>
           match final s' with
           | (Ok _, s'') => (r, s'')
           | (Raise e, s'') => (Raise e, s'')
           end
       end.

#[local] Instance M_ret {E} : MRet (M E) := λ A, ret.
#[local] Instance M_bind {E} : MBind (M E) := λ A B k m, bind m k.

(** ** Collaborators

    Everything the handler imports is outside this file's source: the
    validator, the secure file store, the three engines, the sanitizer, the
    framework's upload object, the clock and the identifier generator.  One
    request sees one behaviour of each; the record below is that behaviour. *)

Record collaborators : Type := mkCollaborators {
  uuid4 : string;
  time_time : nat → float;
  validate : UploadFile → outcome exn unit;
  temp_stem : outcome exn string;
  read : UploadFile → outcome exn (list Byte.byte);
  write : string → list Byte.byte → outcome exn unit;
  transcribe : string → outcome exn string;
  analyse : string → string → outcome exn string;
  score : string → string → string → outcome exn (gmap string pyval);
  sanitize : string → string
}.

Variable env : collaborators.

(** [time.time()]: the next reading of the clock. *)
Definition time {E} : M E float :=
  λ s, (Ok (time_time env (clock s)),
        mkState (files s) (trace s) (S (clock s)) (temp_path s) (success s)).

(** [logger.info] / [logger.error].
    Modelled from the spec: StructuredLogger (middleware.observability) appends
    a structured event and never propagates a failure. *)
Definition logger_info {E} (message : string) (fields : list (string * pyval)) : M E unit :=
  modify (emit (Log INFO message fields)).

Definition logger_error {E} (message : string) (fields : list (string * pyval)) : M E unit :=
  modify (emit (Log ERROR message fields)).

(** Modelled from the spec: validate_audio_file (middleware.validators) has no
    side effect on the request; it returns or fails with its reason. *)
Definition validate_audio_file (audio : UploadFile) : M exn unit :=
  modify (emit (ValidatorCalled (filename audio))) ;;
  lift (validate env audio).

(** Modelled from the spec: SecureFileHandler.create_temp_file
    (middleware.privacy) creates an empty file under a randomized name in the
    restricted directory; the name ends with the requested suffix. *)
Definition create_temp_file (suffix : string) : M exn string :=
  stem ← lift (temp_stem env);
  let path := stem +:+ suffix in
  modify (λ s, emit (TempFileCreated path) (with_files (<[path := []]> (files s)) s)) ;;
  ret path.

(** [with open(path, "wb") as f: f.write(content)] *)
Definition write_file (path : string) (content : list Byte.byte) : M exn unit :=
  lift (write env path content) ;;
  modify (λ s, with_files (<[path := content]> (files s)) s).

(** Modelled from the spec: DataRetentionPolicy.apply (middleware.privacy)
    destroys the file; it is idempotent and never escalates a failure. *)
Definition retention_apply {E} (path : string) : M E unit :=
  modify (λ s, emit (RetentionApplied path) (with_files (delete path (files s)) s)).

(** Modelled from the spec: metrics_tracker.record_request
    (middleware.observability) updates the aggregates once per call. *)
Definition record_request {E} (duration : float) (ok : bool) (rid : string) : M E unit :=
  modify (emit (RequestRecorded duration ok rid)).

(** Modelled from the spec: track_operation (middleware.observability) is a
    context manager that observes the stage it wraps and lets the stage's
    exception through. *)
Definition track_operation {A} (operation rid : string) (stage : M exn A) : M exn A :=
  λ s, match stage s with
       | (Ok a, s') => (Ok a, emit (OperationTracked operation rid true) s')
       | (Raise e, s') => (Raise e, emit (OperationTracked operation rid false) s')
       end.

Definition call_engine {A} (engine : string) (o : outcome exn A) : M exn A :=
  modify (emit (EngineCalled engine)) ;; lift o.

Definition transcribe_audio (path : string) : M exn string :=
  call_engine "transcription" (transcribe env path).

Definition generate_charter_compliant_output (transcript syllabus : string) : M exn string :=
  call_engine "analysis" (analyse env transcript syllabus).

Definition generate_pedagogical_score (analysis transcript syllabus : string)
  : M exn (gmap string pyval) :=
  call_engine "scoring" (score env analysis transcript syllabus).

Definition set_temp_path {E} (p : option string) : M E unit :=
  modify (λ s, mkState (files s) (trace s) (clock s) p (success s)).

Definition set_success {E} (b : bool) : M E unit :=
  modify (λ s, mkState (files s) (trace s) (clock s) (temp_path s) b).

(** ** The handler *)

(** Lines 37-95: the body of the [try]. *)
Definition try_body (rid : string) (start_time : float)
    (audio : UploadFile) (syllabus : string) : M exn SuccessResponse :=
  logger_info "Received analysis request"
    [("request_id", PyStr rid); ("filename", opt_str (filename audio))] ;;
  validate_audio_file audio ;;
  logger_info "File validation passed" [("request_id", PyStr rid)] ;;
  path ← create_temp_file ".mp3";
  set_temp_path (Some path) ;;
  content ← lift (read env audio);
  write_file path content ;;
  logger_info "File saved temporarily"
    [("request_id", PyStr rid); ("size_bytes", PyInt (Z.of_nat (length content)))] ;;
  transcript ← track_operation "transcription" rid (transcribe_audio path);
  logger_info "Transcription completed"
    [("request_id", PyStr rid);
     ("transcript_preview", PyStr (sanitize env transcript))] ;;
  analysis ← track_operation "analysis" rid
                (generate_charter_compliant_output transcript syllabus);
  logger_info "Analysis completed"
    [("request_id", PyStr rid);
     ("analysis_preview", PyStr (sanitize env analysis))] ;;
  score_data ← track_operation "scoring" rid
                  (generate_pedagogical_score analysis transcript syllabus);
  logger_info "Scoring completed"
    [("request_id", PyStr rid); ("score", dict_get score_data "score" PyNone)] ;;
  now ← time;
  let processing_time := fsub now start_time in
  let response_data :=
    mkAnalysisResponse analysis
      (dict_get score_data "score" (PyInt 50))
      (dict_get score_data "reasoning" (PyStr "Score generated"))
      (round_ndigits processing_time 2) in
  set_success true ;;
  ret (mkSuccessResponse rid response_data).

(** Lines 97-110: the three [except] clauses, tried in order. *)
Definition except_clauses (rid : string) (e : exn) : M HTTPException SuccessResponse :=
  match e with
  | ValueError _ =>
      logger_error "Validation error"
        [("request_id", PyStr rid); ("error", PyStr (str e))] ;;
      raise (mkHTTPException 400 (str e))
  | ExternalAPIError _ =>
      logger_error "External API error"
        [("request_id", PyStr rid); ("error", PyStr (str e))] ;;
      raise (mkHTTPException 502 ("External service error: " +:+ str e))
  | OtherException _ =>
      logger_error "Unexpected error"
        [("request_id", PyStr rid); ("error", PyStr (str e))] ;;
      raise (mkHTTPException 500 "Internal server error")
  end.

(** Lines 112-126: the [finally] block. *)
Definition finally_block (rid : string) (start_time : float) : M HTTPException unit :=
  p ← get temp_path;
  (if truthy p
   then match p with Some path => retention_apply path | None => ret tt end
   else ret tt) ;;
  now ← time;
  let processing_time := fsub now start_time in
  ok ← get success;
  record_request processing_time ok rid ;;
  logger_info "Request completed"
    [("request_id", PyStr rid); ("success", PyBool ok);
     ("total_time", PyStr (format_2f processing_time +:+ "s"))].

Definition audio_to_document (audio : UploadFile) (syllabus : string)
  : M HTTPException SuccessResponse :=
  let rid := uuid4 env in
  start_time ← time;
  set_temp_path None ;;
  set_success false ;;
  try_finally
    (try_except (try_body rid start_time audio syllabus) (except_clauses rid))
    (finally_block rid start_time).

End Pipeline.

(** * Collaborators modelled from the specification *)

(** ** The input validator *)

Module Validator.

Record config : Type := mkConfig {
  accepted_types : list string;
  max_size_bytes : nat;
  sample_content : bool;
  signatures : list (list Byte.byte)
}.

Fixpoint starts_with (signature content : list Byte.byte) : bool :=
  match signature, content with
  | [], _ => true
  | b :: signature', c :: content' =>
      Byte.eqb b c && starts_with signature' content'
  | _ :: _, [] => false
  end.

Definition type_accepted (cfg : config) (u : UploadFile) : bool :=
  match content_type u with
  | Some t => existsb (String.eqb t) (accepted_types cfg)
  | None => false
  end.

Definition header_known (cfg : config) (u : UploadFile) : bool :=
  existsb (λ signature, starts_with signature (body u)) (signatures cfg).

(** Modelled from the spec: validate_audio_file (middleware.validators).  The
    checks run in the order content type, size, sampled header; the first one
    that fails gives the reason. *)
Definition validate (cfg : config) (u : UploadFile) : outcome exn unit :=
  if negb (type_accepted cfg u)
  then Raise (ValueError "unsupported content type")
  else if (max_size_bytes cfg <? length (body u))%nat
  then Raise (ValueError "file size exceeds the configured maximum")
  else if sample_content cfg && negb (header_known cfg u)
  then Raise (ValueError "content does not match a known audio signature")
  else Ok tt.

End Validator.

(** ** The resilient external caller *)

Module Breaker.

Local Open Scope nat_scope.

Inductive circuit : Type := Closed | Open | HalfOpen.

(** The configuration options the specification enumerates. *)
Record config : Type := mkConfig {
  max_attempts : nat;
  backoff_base : nat;
  failure_threshold : nat;
  cooldown_seconds : nat
}.

(** How one invocation of an engine operation can fail. *)
Inductive failure : Type :=
| Timeout
| Transient (cause : string)
| Permanent (cause : string).

Definition retryable (f : failure) : bool :=
  match f with
  | Timeout | Transient _ => true
  | Permanent _ => false
  end.

Inductive ExternalError : Type :=
| circuit_open (engine_id : string)
| exhausted (engine_id : string) (last_cause : failure).

(** Modelled from the spec: the Circuit State of one engine
    (middleware.failure_containment): the state, the failure counter and the
    time of the last failure.  [history] is a ghost field: the results of the
    operation's invocations, newest first, [true] for a result and [false] for
    a failure. *)
Record breaker : Type := mkBreaker {
  circuit_state : circuit;
  failure_count : nat;
  last_failure : nat;
  history : list bool
}.

Definition initial : breaker := mkBreaker Closed 0 0 [].

(** The number of failures since the last result. *)
Fixpoint streak (h : list bool) : nat :=
  match h with
  | false :: h' => S (streak h')
  | _ => 0
  end.

Section Call.

Context {A : Type}.
Variable cfg : config.
Variable engine_id : string.

(** The circuit is open and the cool-down window has not elapsed. *)
Definition cooling (now : nat) (b : breaker) : bool :=
  match circuit_state b with
  | Open => now <? last_failure b + cooldown_seconds cfg
  | _ => false
  end.

(** An open circuit whose cool-down has elapsed lets one probe through. *)
Definition half_open (b : breaker) : breaker :=
  match circuit_state b with
  | Open => mkBreaker HalfOpen (failure_count b) (last_failure b) (history b)
  | _ => b
  end.

Definition on_success (b : breaker) : breaker :=
  mkBreaker Closed 0 (last_failure b) (true :: history b).

Definition on_failure (now : nat) (b : breaker) : breaker :=
  let n := S (failure_count b) in
  mkBreaker
    (match circuit_state b with
     | HalfOpen => Open
     | c => if failure_threshold cfg <=? n then Open else c
     end)
    n now (false :: history b).

Definition backoff (attempt : nat) : nat := backoff_base cfg * 2 ^ attempt.

(** Modelled from the spec: the Resilient External Caller
    (middleware.failure_containment).  Each dispatch first consults the
    circuit; an invocation that fails is counted and, while attempts remain
    and the failure is of a transient class, dispatched again after the
    backoff delay.  [op k] is the result of the [k]-th invocation of the
    engine operation. *)
Fixpoint dispatch (op : nat → outcome failure A) (retries attempt now : nat)
    (b : breaker) : outcome ExternalError A * breaker :=
  if cooling now b then (Raise (circuit_open engine_id), b)
  else
    let b := half_open b in
    match op (length (history b)) with
    | Ok a => (Ok a, on_success b)
    | Raise f =>
        let b := on_failure now b in
        match retries with
        | S retries' =>
            if retryable f
            then dispatch op retries' (S attempt) (now + backoff attempt) b
            else (Raise (exhausted engine_id f), b)
        | O => (Raise (exhausted engine_id f), b)
        end
    end.

Definition call (op : nat → outcome failure A) (now : nat) (b : breaker)
  : outcome ExternalError A * breaker :=
  dispatch op (pred (max_attempts cfg)) 0 now b.

(** The circuit states a process can be in between two calls. *)
Inductive reachable : breaker → Prop :=
| reachable_initial : reachable initial
| reachable_call op now b : reachable b → reachable (snd (call op now b)).

(** The counter agrees with the history, and the circuit is open exactly when
    the counter has reached the threshold. *)
Definition consistent (b : breaker) : Prop :=
  failure_count b = streak (history b) ∧
  match circuit_state b with
  | Closed => failure_count b < failure_threshold cfg
  | Open => failure_threshold cfg ≤ failure_count b
  | HalfOpen => False
  end.

End Call.

End Breaker.

(** ** Vocabulary of the statements *)

Section Runs.

Context {float : Type} `{!PyFloat float}.
Implicit Types (env : collaborators (float:=float)) (s : state (float:=float)).

(** The envelope a request produces and the state it leaves. *)
Definition response env audio syllabus s : outcome HTTPException SuccessResponse :=
  fst (audio_to_document env audio syllabus s).

Definition final env audio syllabus s : state :=
  snd (audio_to_document env audio syllabus s).

(** The events the request appended to the trace. *)
Definition request_events env audio syllabus s : list event :=
  drop (length (trace s)) (trace (final env audio syllabus s)).

(** The stages of the [try] body at which a collaborator can raise. *)
Inductive stage : Type :=
| Validation | TempFile | Read | Write | Transcription | Analysis | Scoring.

Definition is_engine (st : stage) : bool :=
  match st with
  | Transcription | Analysis | Scoring => true
  | _ => false
  end.

(** [raises_at env audio syllabus st e]: every stage before [st] returned and
    the collaborator of stage [st] raised [e]. *)
Inductive raises_at env (audio : UploadFile) (syllabus : string) (e : exn)
  : stage → Prop :=
| raises_validation :
    validate env audio = Raise e →
    raises_at env audio syllabus e Validation
| raises_temp_file :
    validate env audio = Ok tt →
    temp_stem env = Raise e →
    raises_at env audio syllabus e TempFile
| raises_read stem :
    validate env audio = Ok tt →
    temp_stem env = Ok stem →
    read env audio = Raise e →
    raises_at env audio syllabus e Read
| raises_write stem content :
    validate env audio = Ok tt →
    temp_stem env = Ok stem →
    read env audio = Ok content →
    write env (stem +:+ ".mp3") content = Raise e →
    raises_at env audio syllabus e Write
| raises_transcription stem content :
    validate env audio = Ok tt →
    temp_stem env = Ok stem →
    read env audio = Ok content →
    write env (stem +:+ ".mp3") content = Ok tt →
    transcribe env (stem +:+ ".mp3") = Raise e →
    raises_at env audio syllabus e Transcription
| raises_analysis stem content transcript :
    validate env audio = Ok tt →
    temp_stem env = Ok stem →
    read env audio = Ok content →
    write env (stem +:+ ".mp3") content = Ok tt →
    transcribe env (stem +:+ ".mp3") = Ok transcript →
    analyse env transcript syllabus = Raise e →
    raises_at env audio syllabus e Analysis
| raises_scoring stem content transcript analysis :
    validate env audio = Ok tt →
    temp_stem env = Ok stem →
    read env audio = Ok content →
    write env (stem +:+ ".mp3") content = Ok tt →
    transcribe env (stem +:+ ".mp3") = Ok transcript →
    analyse env transcript syllabus = Ok analysis →
    score env analysis transcript syllabus = Raise e →
    raises_at env audio syllabus e Scoring.

(** Every stage returned: the three engines produced [transcript], [analysis]
    and [score_data]. *)
Definition all_stages_return env (audio : UploadFile) (syllabus : string)
    (transcript analysis : string) (score_data : gmap string pyval) : Prop :=
  ∃ stem content,
    validate env audio = Ok tt ∧
    temp_stem env = Ok stem ∧
    read env audio = Ok content ∧
    write env (stem +:+ ".mp3") content = Ok tt ∧
    transcribe env (stem +:+ ".mp3") = Ok transcript ∧
    analyse env transcript syllabus = Ok analysis ∧
    score env analysis transcript syllabus = Ok score_data.

Definition is_file_event (e : event (float:=float)) : bool :=
  match e with
  | TempFileCreated _ | RetentionApplied _ => true
  | _ => false
  end.

Definition is_record (e : event (float:=float)) : bool :=
  match e with
  | RequestRecorded _ _ _ => true
  | _ => false
  end.

Definition is_log (e : event (float:=float)) : bool :=
  match e with
  | Log _ _ _ => true
  | _ => false
  end.

Definition is_engine_call (e : event (float:=float)) : bool :=
  match e with
  | EngineCalled _ => true
  | _ => false
  end.

(** The scoring collaborator's contract: an integer score and a textual
    reasoning, each optional. *)
Definition scoring_contract (d : gmap string pyval) : Prop :=
  (∀ v, d !! "score" = Some v → ∃ z, v = PyInt z) ∧
  (∀ v, d !! "reasoning" = Some v → ∃ why, v = PyStr why).

Definition is_success {E A} (o : outcome E A) : bool :=
  match o with
  | Ok _ => true
  | Raise _ => false
  end.

End Runs.

(** ** Agreement of two behaviours up to the raw content *)

Section LowView.

Context {float : Type} `{!PyFloat float}.
Implicit Types (env : collaborators (float:=float)).

(** Two outcomes that raise the same exception, or return values with the
    same [view]. *)
Definition alike {A B} (view : A → B) (o1 o2 : outcome exn A) : Prop :=
  match o1, o2 with
  | Ok a1, Ok a2 => view a1 = view a2
  | Raise e1, Raise e2 => e1 = e2
  | _, _ => False
  end.

(** The collaborators of two requests behave alike, except that the
    transcripts and the analyses they produce may differ as long as their
    sanitized previews coincide. *)
Record same_low_view env1 env2 (audio : UploadFile) (syllabus : string)
  : Prop := mkSameLowView {
  low_uuid : uuid4 env1 = uuid4 env2;
  low_clock : ∀ k, time_time env1 k = time_time env2 k;
  low_validate : validate env1 audio = validate env2 audio;
  low_stem : temp_stem env1 = temp_stem env2;
  low_read : read env1 audio = read env2 audio;
  low_write : ∀ p c, write env1 p c = write env2 p c;
  low_sanitize : ∀ x, sanitize env1 x = sanitize env2 x;
  low_transcribe : ∀ p,
    alike (sanitize env1) (transcribe env1 p) (transcribe env2 p);
  low_analyse : ∀ t1 t2,
    sanitize env1 t1 = sanitize env1 t2 →
    alike (sanitize env1) (analyse env1 t1 syllabus) (analyse env2 t2 syllabus);
  low_score : ∀ a1 a2 t1 t2,
    sanitize env1 a1 = sanitize env1 a2 →
    sanitize env1 t1 = sanitize env1 t2 →
    alike (λ d : gmap string pyval, d !! "score")
      (score env1 a1 t1 syllabus) (score env2 a2 t2 syllabus)
}.

End LowView.

(** ** Concrete behaviours *)

Module Demo.

(** A clock that ticks in hundredths of a second: rounding to two decimals
    keeps a reading as it is. *)
#[global] Instance centis : PyFloat Z := {|
  fsub := Z.sub;
  round_ndigits := λ x _, x;
  format_2f := λ x,
    pretty (x / 100)%Z +:+ "." +:+ pretty ((x mod 100) / 10)%Z
      +:+ pretty (x mod 10)%Z
|}.

Definition limits : Validator.config :=
  Validator.mkConfig ["audio/mpeg"; "audio/wav"] 4 false [].

Definition behaviour
    (w : outcome exn unit) (t a : outcome exn string)
    (sc : outcome exn (gmap string pyval)) : collaborators (float:=Z) :=
  {| uuid4 := "3f2b8c1e-rid";
     time_time := λ k, (Z.of_nat k * 125)%Z;
     validate := Validator.validate limits;
     temp_stem := Ok "/secure/tmp_ab12";
     read := λ u, Ok (body u);
     write := λ _ _, w;
     transcribe := λ _, t;
     analyse := λ _ _, a;
     score := λ _ _ _, sc;
     sanitize := String.substring 0 5 |}.

Definition scores : gmap string pyval :=
  {[ "score" := PyInt 80; "reasoning" := PyStr "clear objectives" ]}.

Definition all_well : collaborators :=
  behaviour (Ok tt) (Ok "hello world") (Ok "ok") (Ok scores).

Definition no_fields : collaborators :=
  behaviour (Ok tt) (Ok "hello world") (Ok "ok") (Ok ∅).

Definition engine_down : collaborators :=
  behaviour (Ok tt) (Raise (ExternalAPIError "transcription: timed out"))
    (Ok "ok") (Ok scores).

Definition disk_full : collaborators :=
  behaviour (Raise (OtherException "No space left on device"))
    (Ok "hello world") (Ok "ok") (Ok scores).

Definition bad_path : collaborators :=
  behaviour (Raise (ValueError "embedded null byte"))
    (Ok "hello world") (Ok "ok") (Ok scores).

Definition other_words : collaborators :=
  behaviour (Ok tt) (Ok "hello there") (Ok "ok") (Ok scores).

Definition small : UploadFile :=
  mkUploadFile (Some "lecture.mp3") (Some "audio/mpeg")
    [Byte.x49; Byte.x44; Byte.x33].

Definition oversized : UploadFile :=
  mkUploadFile (Some "lecture.mp3") (Some "audio/mpeg")
    [Byte.x49; Byte.x44; Byte.x33; Byte.x04; Byte.x00].

Definition fresh : state (float:=Z) := mkState ∅ [] 0 None false.

Definition breaker_config : Breaker.config := Breaker.mkConfig 2 1 3 30.

Definition always_down (k : nat) : outcome Breaker.failure string :=
  Raise Breaker.Timeout.

Definition back_up (k : nat) : outcome Breaker.failure string :=
  Ok "hello world".

(** Two calls to an engine that times out on every invocation: three failed
    invocations, the third of which trips the circuit at time 5. *)
Definition tripped : Breaker.breaker :=
  snd (Breaker.call breaker_config "transcription" always_down 5
         (snd (Breaker.call breaker_config "transcription" always_down 0
                 Breaker.initial))).

End Demo.

(** ** Observations on a request's events *)

Section Observations.

Context {float : Type} `{!PyFloat float}.

(** The engines a request called, in the order of the calls. *)
Definition engine_calls (evs : list (event (float:=float))) : list string :=
  omap (λ e, match e with EngineCalled name => Some name | _ => None end) evs.

Definition is_error_log (e : event (float:=float)) : bool :=
  match e with
  | Log ERROR _ _ => true
  | _ => false
  end.

(** A log line whose first field is the request identifier [rid]. *)
Definition carries_request_id (rid : string) (e : event (float:=float)) : Prop :=
  match e with
  | Log _ _ (field :: _) => field = ("request_id", PyStr rid)
  | Log _ _ [] => False
  | _ => True
  end.

End Observations.

Module Cases.

(** The file store refuses to create the temporary file. *)
Definition store_down : collaborators (float:=Z) :=
  {| uuid4 := "3f2b8c1e-rid";
     time_time := λ k, (Z.of_nat k * 125)%Z;
     validate := Validator.validate Demo.limits;
     temp_stem := Raise (OtherException "Permission denied");
     read := λ u, Ok (body u);
     write := λ _ _, Ok tt;
     transcribe := λ _, Ok "hello world";
     analyse := λ _ _, Ok "ok";
     score := λ _ _ _, Ok Demo.scores;
     sanitize := String.substring 0 5 |}.

(** A state in which [temp_path] holds the empty string, and a store with an
    unrelated file in it. *)
Definition empty_path : state (float:=Z) :=
  mkState {[ "/secure/other.mp3" := [Byte.x00] ]} [] 1 (Some "") false.

End Cases.

(** * Properties of the pipeline *)

Section Facts.

Context {float : Type} `{!PyFloat float}.
Implicit Types (env : collaborators (float:=float)) (s : state (float:=float)).

#[local] Arguments truthy : simpl never.

Lemma truthy_suffixed stem : truthy (Some (stem +:+ ".mp3")) = true.
Proof. destruct stem; reflexivity. Qed.

Lemma drop_own_length {A} (l k : list A) : drop (length l) (l ++ k) = k.
Proof. by rewrite drop_app_length. Qed.

Ltac unfold_pipeline :=
  unfold request_events, response, final, audio_to_document, try_finally,
    try_except, try_body, finally_block, except_clauses, validate_audio_file,
    create_temp_file, write_file, track_operation, transcribe_audio,
    generate_charter_compliant_output, generate_pedagogical_score, call_engine,
    logger_info, logger_error, retention_apply, record_request, set_temp_path,
    set_success, time, modify, get, lift, raise, mbind, mret, M_bind, M_ret,
    bind, ret, emit, with_files.

Ltac use_outcomes :=
  repeat (cbn;
          match goal with
          | H : _ = Ok _ |- _ => rewrite H
          | H : _ = Raise _ |- _ => rewrite H
          | |- context [truthy (Some (?stem +:+ ".mp3"))] =>
              rewrite (truthy_suffixed stem)
          | |- context [truthy None] => change (truthy None) with false
          end);
  cbn.

Ltac case_stages :=
  repeat (use_outcomes;
          match goal with
          | |- context [validate ?e ?a] =>
              destruct (validate e a) as [[]|[]] eqn:?
          | |- context [temp_stem ?e] =>
              destruct (temp_stem e) as [?|[]] eqn:?
          | |- context [read ?e ?a] =>
              destruct (read e a) as [?|[]] eqn:?
          | |- context [write ?e ?p ?c] =>
              destruct (write e p c) as [[]|[]] eqn:?
          | |- context [transcribe ?e ?p] =>
              destruct (transcribe e p) as [?|[]] eqn:?
          | |- context [analyse ?e ?t ?y] =>
              destruct (analyse e t y) as [?|[]] eqn:?
          | |- context [score ?e ?a ?t ?y] =>
              destruct (score e a t y) as [?|[]] eqn:?
          end);
  use_outcomes.

Ltac own_events := rewrite <- ?app_assoc, ?drop_own_length; cbn.


(** C1. When validation passes and the store hands out a path, the request
    creates that temporary file once and destroys it once, in this order and
    on whichever path the request leaves the handler; the file is absent from
    the store afterwards. *)
Theorem C1_temp_file_created_and_destroyed_once env audio syllabus s stem :
  validate env audio = Ok tt →
  temp_stem env = Ok stem →
  List.filter is_file_event (request_events env audio syllabus s) =
    [TempFileCreated (stem +:+ ".mp3"); RetentionApplied (stem +:+ ".mp3")] ∧
  files (final env audio syllabus s) !! (stem +:+ ".mp3") = None.
Proof.
  intros Hv Ht. unfold_pipeline.
  case_stages; own_events; (split; [reflexivity | apply lookup_delete_eq]).
Qed.

(** C2. Every request records its metrics exactly once, and the recorded
    success flag is true exactly when the request returned a success
    envelope. *)
Theorem C2_request_recorded_once env audio syllabus s :
  ∃ duration,
    List.filter is_record (request_events env audio syllabus s) =
      [RequestRecorded duration
         (is_success (response env audio syllabus s)) (uuid4 env)].
Proof.
  unfold_pipeline.
  case_stages; own_events; eexists; reflexivity.
Qed.

(** C4. An upload the validator rejects is answered with status 400 and the
    validator's message as detail; the request touches no temporary file and
    calls no engine. *)
Theorem C4_rejected_upload_is_client_error env audio syllabus s msg :
  validate env audio = Raise (ValueError msg) →
  response env audio syllabus s = Raise (mkHTTPException 400 msg) ∧
  List.filter is_file_event (request_events env audio syllabus s) = [] ∧
  List.filter is_engine_call (request_events env audio syllabus s) = [] ∧
  files (final env audio syllabus s) = files s.
Proof.
  intros Hv. unfold_pipeline. use_outcomes. own_events. auto.
Qed.

(** C5. In the success envelope an absent score becomes 50, an absent
    reasoning becomes a non-empty default text, and fields that are present
    are passed through as the scoring engine returned them. *)
Theorem C5_score_defaults env audio syllabus s transcript analysis score_data :
  all_stages_return env audio syllabus transcript analysis score_data →
  ∃ r, response env audio syllabus s = Ok r ∧
    (score_data !! "score" = None → pedagogical_score (data r) = PyInt 50) ∧
    (score_data !! "reasoning" = None →
       ∃ why, score_reasoning (data r) = PyStr why ∧ why ≠ "") ∧
    (∀ v w, score_data !! "score" = Some v →
            score_data !! "reasoning" = Some w →
            pedagogical_score (data r) = v ∧ score_reasoning (data r) = w).
Proof.
  intros (stem & content & Hv & Ht & Hr & Hw & Htr & Han & Hsc).
  unfold_pipeline. use_outcomes. eexists. split; [reflexivity|]. cbn.
  unfold dict_get. split; [|split].
  - intros ->. reflexivity.
  - intros ->. eexists. split; [reflexivity | discriminate].
  - intros v w -> ->. split; reflexivity.
Qed.

(** C6. When an engine call is the stage that fails, and it fails with the
    external-service error, the request is answered with status 502 and a
    detail that ends with the error's cause. *)
Theorem C6_engine_failure_is_gateway_error env audio syllabus s st cause :
  is_engine st = true →
  raises_at env audio syllabus (ExternalAPIError cause) st →
  response env audio syllabus s =
    Raise (mkHTTPException 502 ("External service error: " +:+ cause)).
Proof.
  intros _ Hr. unfold_pipeline.
  destruct Hr; use_outcomes; reflexivity.
Qed.

(** C7. A failure that is neither a [ValueError] nor the external-service
    error is answered with status 500 and the fixed detail
    "Internal server error", whatever the exception's text is; the text goes
    to the error log. *)
Theorem C7_unexpected_error_is_generic env audio syllabus s st text :
  raises_at env audio syllabus (OtherException text) st →
  response env audio syllabus s =
    Raise (mkHTTPException 500 "Internal server error") ∧
  Log ERROR "Unexpected error"
    [("request_id", PyStr (uuid4 env)); ("error", PyStr text)]
    ∈ request_events env audio syllabus s.
Proof.
  intros Hr. unfold_pipeline.
  destruct Hr; use_outcomes; own_events;
    (split; [reflexivity | rewrite !elem_of_cons; tauto]).
Qed.

(** C8. When the three engines return, the request is answered with the
    success envelope: the request identifier, the analysis as the analysis
    engine returned it, an integer score, a textual reasoning, and the time
    elapsed between the first and the second reading of the clock rounded to
    two decimals. *)
Theorem C8_success_envelope env audio syllabus s transcript analysis score_data :
  all_stages_return env audio syllabus transcript analysis score_data →
  scoring_contract score_data →
  ∃ (z : Z) (why : string),
    dict_get score_data "score" (PyInt 50) = PyInt z ∧
    dict_get score_data "reasoning" (PyStr "Score generated") = PyStr why ∧
    response env audio syllabus s =
      Ok (mkSuccessResponse (uuid4 env)
            (mkAnalysisResponse analysis (PyInt z) (PyStr why)
               (round_ndigits
                  (fsub (time_time env (S (clock s))) (time_time env (clock s)))
                  2))).
Proof.
  intros (stem & content & Hv & Ht & Hr & Hw & Htr & Han & Hsc) [Hi Hy].
  assert (∃ z, dict_get score_data "score" (PyInt 50) = PyInt z) as [z Hz].
  { unfold dict_get. destruct (score_data !! "score") as [v|] eqn:E; cbn; eauto. }
  assert (∃ why, dict_get score_data "reasoning" (PyStr "Score generated")
                 = PyStr why) as [why Hwhy].
  { unfold dict_get. destruct (score_data !! "reasoning") as [v|] eqn:E; cbn; eauto. }
  exists z, why. split; [done|]. split; [done|].
  unfold_pipeline. use_outcomes. by rewrite Hz, Hwhy.
Qed.

(** C10. A [ValueError] raised by any stage of the pipeline, be it the
    validator, the file store, the upload read, the file write or an engine,
    is answered with status 400 and the exception's message as detail. *)
Theorem C10_any_value_error_is_client_error env audio syllabus s st msg :
  raises_at env audio syllabus (ValueError msg) st →
  response env audio syllabus s = Raise (mkHTTPException 400 msg).
Proof.
  intros Hr. unfold_pipeline.
  destruct Hr; use_outcomes; reflexivity.
Qed.


(** The log of a request all of whose stages return: the transcript and the
    analysis reach it only as the sanitizer's output. *)
Lemma log_of_successful_request env audio syllabus s transcript analysis score_data :
  all_stages_return env audio syllabus transcript analysis score_data →
  List.filter is_log (request_events env audio syllabus s) =
    let rid := ("request_id", PyStr (uuid4 env)) in
    let total :=
      fsub (time_time env (S (S (clock s)))) (time_time env (clock s)) in
    [ Log INFO "Received analysis request"
        [rid; ("filename", opt_str (filename audio))];
      Log INFO "File validation passed" [rid];
      Log INFO "File saved temporarily"
        [rid; ("size_bytes",
               PyInt (Z.of_nat (length (match read env audio with
                                        | Ok content => content
                                        | Raise _ => []
                                        end))))];
      Log INFO "Transcription completed"
        [rid; ("transcript_preview", PyStr (sanitize env transcript))];
      Log INFO "Analysis completed"
        [rid; ("analysis_preview", PyStr (sanitize env analysis))];
      Log INFO "Scoring completed"
        [rid; ("score", dict_get score_data "score" PyNone)];
      Log INFO "Request completed"
        [rid; ("success", PyBool true);
         ("total_time", PyStr (format_2f total +:+ "s"))] ].
Proof.
  intros (stem & content & Hv & Ht & Hr & Hw & Htr & Han & Hsc).
  unfold_pipeline. use_outcomes. own_events. reflexivity.
Qed.

(** Everything a request appends to the trace is determined by the sanitized
    previews of the transcript and of the analysis, not by the raw texts. *)
Lemma events_depend_on_previews env1 env2 audio syllabus s :
  same_low_view env1 env2 audio syllabus →
  request_events env1 audio syllabus s = request_events env2 audio syllabus s.
Proof.
  intros [Hu Hc Hv Ht Hr Hw Hs Htr Han Hsc].
  unfold_pipeline. rewrite <- Hu, <- Hv, <- Ht, <- Hr, <- !Hc.
  clear Hv Ht Hr.
  destruct (validate env1 audio) as [[]|[]]; use_outcomes; rewrite <- ?Hc;
    [|done..].
  destruct (temp_stem env1) as [stem|[]]; use_outcomes; rewrite <- ?Hc;
    [|done..].
  destruct (read env1 audio) as [content|[]]; use_outcomes; rewrite <- ?Hc;
    [|done..].
  rewrite <- Hw.
  destruct (write env1 _ content) as [[]|[]]; use_outcomes; rewrite <- ?Hc;
    [|done..].
  specialize (Htr (stem +:+ ".mp3")).
  destruct (transcribe env1 _) as [t1|e1], (transcribe env2 _) as [t2|e2];
    cbn in Htr; try done; use_outcomes; rewrite <- ?Hc;
    [|subst e2; destruct e1; use_outcomes; rewrite <- ?Hc; done].
  specialize (Han t1 t2 Htr).
  destruct (analyse env1 _ _) as [a1|e1], (analyse env2 _ _) as [a2|e2];
    cbn in Han; try done; use_outcomes; rewrite <- ?Hc, <- ?Hs, ?Htr;
    [|subst e2; destruct e1; use_outcomes; rewrite <- ?Hc; done].
  specialize (Hsc a1 a2 t1 t2 Han Htr).
  destruct (score env1 _ _ _) as [d1|e1], (score env2 _ _ _) as [d2|e2];
    cbn in Hsc; try done; use_outcomes; rewrite <- ?Hc, <- ?Hs, ?Han;
    [|subst e2; destruct e1; use_outcomes; rewrite <- ?Hc; done].
  unfold dict_get. rewrite Hsc. done.
Qed.

(** C9. The log lines of a request carry the transcript and the analysis only
    as the sanitizer's previews: two requests whose collaborators differ in
    the raw transcript and the raw analysis, but not in their sanitized
    previews, write the same log. *)
Theorem C9_logs_see_only_sanitized_content env1 env2 audio syllabus s :
  same_low_view env1 env2 audio syllabus →
  List.filter is_log (request_events env1 audio syllabus s) =
  List.filter is_log (request_events env2 audio syllabus s).
Proof.
  intros Hlow. by rewrite (events_depend_on_previews env1 env2).
Qed.

(** An upload of an accepted type that is larger than the configured maximum
    is rejected by the validator with a reason about its size. *)
Lemma oversized_upload_rejected cfg (u : UploadFile) :
  Validator.type_accepted cfg u = true →
  (Validator.max_size_bytes cfg < length (body u))%nat →
  Validator.validate cfg u =
    Raise (ValueError "file size exceeds the configured maximum").
Proof.
  intros Hty Hsz. unfold Validator.validate. rewrite Hty.
  apply Nat.ltb_lt in Hsz. rewrite Hsz. reflexivity.
Qed.

(** ** Further properties of the handler *)


(** X2. A request is answered with the success envelope exactly when every
    stage of the pipeline returned. *)
Theorem X2_success_iff_all_stages_return env audio syllabus s :
  is_success (response env audio syllabus s) = true ↔
  ∃ transcript analysis score_data,
    all_stages_return env audio syllabus transcript analysis score_data.
Proof.
  split.
  - unfold_pipeline.
    case_stages; intros Hok; try discriminate Hok.
    unfold all_stages_return. eauto 15.
  - intros (transcript & analysis & score_data & stem & content
            & Hv & Ht & Hr & Hw & Htr & Han & Hsc).
    unfold_pipeline. use_outcomes. reflexivity.
Qed.


(** X4. Every log line a request writes has the request identifier as its
    first field. *)
Theorem X4_every_log_line_has_request_id env audio syllabus s :
  Forall (carries_request_id (uuid4 env)) (request_events env audio syllabus s).
Proof.
  unfold_pipeline.
  case_stages; own_events; repeat constructor.
Qed.

(** X5. A request that fails writes exactly one error log line, and a request
    that succeeds writes none. *)
Theorem X5_one_error_line_per_failure env audio syllabus s :
  length (List.filter is_error_log (request_events env audio syllabus s)) =
    if is_success (response env audio syllabus s) then 0%nat else 1%nat.
Proof.
  unfold_pipeline.
  case_stages; own_events; reflexivity.
Qed.

(** X6. The events of every request begin with the "Received analysis
    request" line, which carries the upload's file name, and end with the
    metrics record followed by the "Request completed" line; that line reports
    the success flag and the duration that were recorded. *)
Theorem X6_received_first_completed_last env audio syllabus s :
  ∃ duration,
    head (request_events env audio syllabus s) =
      Some (Log INFO "Received analysis request"
              [("request_id", PyStr (uuid4 env));
               ("filename", opt_str (filename audio))]) ∧
    take 2 (reverse (request_events env audio syllabus s)) =
      [ Log INFO "Request completed"
          [("request_id", PyStr (uuid4 env));
           ("success", PyBool (is_success (response env audio syllabus s)));
           ("total_time", PyStr (format_2f duration +:+ "s"))];
        RequestRecorded duration
          (is_success (response env audio syllabus s)) (uuid4 env) ].
Proof.
  unfold_pipeline.
  case_stages; own_events; eexists; split; reflexivity.
Qed.

(** X7. After a request the file store is the store it started from, without
    the temporary path if one was handed out: whatever the later stages did,
    no file of the request is left and no other file is touched. *)
Theorem X7_store_after_request env audio syllabus s :
  files (final env audio syllabus s) =
    match validate env audio, temp_stem env with
    | Ok _, Ok stem => delete (stem +:+ ".mp3") (files s)
    | _, _ => files s
    end.
Proof.
  unfold_pipeline.
  case_stages; rewrite ?delete_insert_eq; reflexivity.
Qed.

(** X8. When the temporary file cannot be created, [temp_path] is still
    [None] in the [finally] block: the retention policy is not applied and no
    engine is called. *)
Theorem X8_no_cleanup_without_temp_file env audio syllabus s e :
  validate env audio = Ok tt →
  temp_stem env = Raise e →
  List.filter is_file_event (request_events env audio syllabus s) = [] ∧
  engine_calls (request_events env audio syllabus s) = [].
Proof.
  intros Hv Ht. unfold_pipeline. use_outcomes.
  destruct e; use_outcomes; own_events; split; reflexivity.
Qed.

(** X9. When the scoring result has no score, the "Scoring completed" line
    logs [None] for the score while the response reports 50: the default is
    applied to the response only. *)
Theorem X9_absent_score_logged_as_none env audio syllabus s
    transcript analysis score_data :
  all_stages_return env audio syllabus transcript analysis score_data →
  score_data !! "score" = None →
  Log INFO "Scoring completed"
    [("request_id", PyStr (uuid4 env)); ("score", PyNone)]
    ∈ request_events env audio syllabus s ∧
  ∃ r, response env audio syllabus s = Ok r ∧
       pedagogical_score (data r) = PyInt 50.
Proof.
  intros (stem & content & Hv & Ht & Hr & Hw & Htr & Han & Hsc) Hnone.
  unfold_pipeline. use_outcomes. own_events. unfold dict_get. rewrite Hnone.
  split; [rewrite !elem_of_cons; tauto | eexists; split; reflexivity].
Qed.

(** X10. The [finally] block tests [temp_path] for truth: with [None] or with
    the empty string it applies no retention policy and leaves the store as it
    is. *)
Theorem X10_finally_skips_falsy_path env rid start_time s :
  temp_path s = None ∨ temp_path s = Some "" →
  files (snd (finally_block env rid start_time s)) = files s ∧
  List.filter is_file_event
    (drop (length (trace s)) (trace (snd (finally_block env rid start_time s))))
    = [].
Proof.
  intros Hp. unfold_pipeline. cbn.
  destruct Hp as [-> | ->]; unfold truthy; cbn; own_events; split; reflexivity.
Qed.

(** X11. The duration handed to the metrics is measured in the [finally]
    block, from the start reading to the last reading of the clock: the third
    reading when the request succeeds (one reading after the one behind the
    response's processing time), the second when it fails. *)
Theorem X11_recorded_duration env audio syllabus s :
  List.filter is_record (request_events env audio syllabus s) =
    let ok := is_success (response env audio syllabus s) in
    let last := if ok then S (S (clock s)) else S (clock s) in
    [RequestRecorded
       (fsub (time_time env last) (time_time env (clock s))) ok (uuid4 env)].
Proof.
  unfold_pipeline.
  case_stages; own_events; reflexivity.
Qed.


End Facts.

(** * Properties of the circuit breaker *)

Section BreakerFacts.

Import Breaker.
Local Open Scope nat_scope.

Context {A : Type}.
Variable cfg : config.
Variable engine_id : string.
Hypothesis threshold_positive : 1 ≤ failure_threshold cfg.

Implicit Types (op : nat → outcome failure A) (b : breaker).

Lemma dispatch_unfold op retries attempt now b :
  dispatch cfg engine_id op retries attempt now b =
  if cooling cfg now b then (Raise (circuit_open engine_id), b)
  else
    match op (length (history (half_open b))) with
    | Ok a => (Ok a, on_success (half_open b))
    | Raise f =>
        match retries with
        | S retries' =>
            if retryable f
            then dispatch cfg engine_id op retries' (S attempt)
                   (now + backoff cfg attempt)
                   (on_failure cfg now (half_open b))
            else (Raise (exhausted engine_id f),
                  on_failure cfg now (half_open b))
        | O => (Raise (exhausted engine_id f),
                on_failure cfg now (half_open b))
        end
    end.
Proof. destruct retries; reflexivity. Qed.

Lemma on_success_consistent b : consistent cfg (on_success b).
Proof. split; [reflexivity|]. cbn. lia. Qed.

Lemma on_failure_consistent now b :
  cooling cfg now b = false →
  consistent cfg b →
  consistent cfg (on_failure cfg now (half_open b)).
Proof.
  intros _ [Hcount Hstate]. unfold on_failure, half_open, consistent.
  destruct (circuit_state b) eqn:E; cbn; rewrite ?E; cbn; [| |done].
  - split; [lia|].
    destruct (failure_threshold cfg <=? S (failure_count b)) eqn:L.
    + apply Nat.leb_le in L. lia.
    + apply Nat.leb_gt in L. lia.
  - split; lia.
Qed.

Lemma dispatch_consistent op retries attempt now b :
  consistent cfg b →
  consistent cfg (snd (dispatch cfg engine_id op retries attempt now b)).
Proof.
  revert attempt now b.
  induction retries as [|retries IH]; intros attempt now b Hb;
    rewrite dispatch_unfold;
    destruct (cooling cfg now b) eqn:Hcool; try done;
    destruct (op _) as [a|f]; cbn [snd];
    auto using on_success_consistent, on_failure_consistent.
  destruct (retryable f); cbn [snd];
    auto using on_failure_consistent.
Qed.

Lemma reachable_consistent b :
  reachable cfg engine_id (A:=A) b → consistent cfg b.
Proof.
  induction 1 as [|op now b _ IH].
  - split; [reflexivity|]. cbn. lia.
  - by apply dispatch_consistent.
Qed.

(** A probe that fails sends the circuit back to open. *)
Lemma failed_probe_reopens op now b f :
  circuit_state b = Open →
  op (length (history b)) = Raise f →
  last_failure b + cooldown_seconds cfg ≤ now →
  circuit_state (on_failure cfg now (half_open b)) = Open.
Proof.
  intros Hopen _ _. unfold on_failure, half_open. by rewrite Hopen.
Qed.

(** C3. Once the operation of an engine has failed [failure_threshold]
    times in a row, a call made before the cool-down has elapsed fails with
    [circuit_open] and leaves the breaker, and with it the history of
    invocations, as it was; a call made after the cool-down whose probe
    returns closes the circuit, and the calls that follow it return whatever
    the operation returns. *)
Theorem C3_circuit_breaker b :
  reachable cfg engine_id (A:=A) b →
  failure_threshold cfg ≤ streak (history b) →
  (∀ op now,
     now < last_failure b + cooldown_seconds cfg →
     call cfg engine_id op now b = (Raise (circuit_open engine_id), b)) ∧
  (∀ op now v,
     last_failure b + cooldown_seconds cfg ≤ now →
     op (length (history b)) = Ok v →
     ∃ b', call cfg engine_id op now b = (Ok v, b') ∧
           circuit_state b' = Closed ∧ failure_count b' = 0 ∧
           ∀ op' now' v',
             op' (length (history b')) = Ok v' →
             ∃ b'', call cfg engine_id op' now' b' = (Ok v', b'') ∧
                    circuit_state b'' = Closed).
Proof.
  intros Hreach Hstreak.
  destruct (reachable_consistent b Hreach) as [Hcount Hstate].
  assert (circuit_state b = Open) as Hopen.
  { destruct (circuit_state b); [lia | reflexivity | contradiction]. }
  split.
  - intros op now Hnow. unfold call. rewrite dispatch_unfold.
    unfold cooling. rewrite Hopen.
    apply Nat.ltb_lt in Hnow. by rewrite Hnow.
  - intros op now v Hnow Hop.
    assert (cooling cfg now b = false) as Hcool.
    { unfold cooling. rewrite Hopen. by apply Nat.ltb_ge. }
    assert (history (half_open b) = history b) as Hhist.
    { unfold half_open. by rewrite Hopen. }
    exists (on_success (half_open b)). split; [|split; [done|split; [done|]]].
    + unfold call. by rewrite dispatch_unfold, Hcool, Hhist, Hop.
    + intros op' now' v' Hop'. exists (on_success (on_success (half_open b))).
      split; [|reflexivity].
      unfold call. rewrite dispatch_unfold.
      change (cooling cfg now' (on_success (half_open b))) with false.
      change (half_open (on_success (half_open b)))
        with (on_success (half_open b)).
      by rewrite Hop'.
Qed.

End BreakerFacts.

(** * The properties at concrete requests *)

Section Scenarios.

Import Demo.

Lemma small_passes_all_stages (w : outcome exn unit) t a sc d :
  w = Ok tt → sc = Ok d →
  all_stages_return (behaviour w (Ok t) (Ok a) sc) small "" t a d.
Proof.
  intros -> ->. exists "/secure/tmp_ab12", (body small).
  repeat split; reflexivity.
Qed.

Lemma scores_meet_contract : scoring_contract scores.
Proof.
  split; intros v Hv; vm_compute in Hv; injection Hv as <-; eauto.
Qed.

(** The transcription engine is down: the temporary file is still created
    once and destroyed once. *)
Lemma C1_witness :
  validate engine_down small = Ok tt ∧
  temp_stem engine_down = Ok "/secure/tmp_ab12" ∧
  List.filter is_file_event (request_events engine_down small "" fresh) =
    [TempFileCreated "/secure/tmp_ab12.mp3";
     RetentionApplied "/secure/tmp_ab12.mp3"] ∧
  files (final engine_down small "" fresh) !! "/secure/tmp_ab12.mp3" = None.
Proof.
  split; [reflexivity|]. split; [reflexivity|].
  exact (C1_temp_file_created_and_destroyed_once
           engine_down small "" fresh "/secure/tmp_ab12" eq_refl eq_refl).
Defined.

(** A five-byte upload against a four-byte limit. *)
Lemma C4_witness :
  validate all_well oversized =
    Raise (ValueError "file size exceeds the configured maximum") ∧
  response all_well oversized "" fresh =
    Raise (mkHTTPException 400 "file size exceeds the configured maximum") ∧
  List.filter is_file_event (request_events all_well oversized "" fresh) = [] ∧
  List.filter is_engine_call (request_events all_well oversized "" fresh) = [] ∧
  files (final all_well oversized "" fresh) = files fresh.
Proof.
  split; [reflexivity|].
  exact (C4_rejected_upload_is_client_error all_well oversized "" fresh
           "file size exceeds the configured maximum" eq_refl).
Defined.

(** The scoring engine returns an empty mapping. *)
Lemma C5_witness :
  all_stages_return no_fields small "" "hello world" "ok" ∅ ∧
  ∃ r, response no_fields small "" fresh = Ok r ∧
    ((∅ : gmap string pyval) !! "score" = None →
       pedagogical_score (data r) = PyInt 50) ∧
    ((∅ : gmap string pyval) !! "reasoning" = None →
       ∃ why, score_reasoning (data r) = PyStr why ∧ why ≠ "") ∧
    (∀ v w, (∅ : gmap string pyval) !! "score" = Some v →
            (∅ : gmap string pyval) !! "reasoning" = Some w →
            pedagogical_score (data r) = v ∧ score_reasoning (data r) = w).
Proof.
  split; [by apply small_passes_all_stages|].
  apply (C5_score_defaults no_fields small "" fresh "hello world" "ok" ∅).
  by apply small_passes_all_stages.
Defined.

(** The transcription engine gives up with a timeout. *)
Lemma C6_witness :
  is_engine Transcription = true ∧
  raises_at engine_down small ""
    (ExternalAPIError "transcription: timed out") Transcription ∧
  response engine_down small "" fresh =
    Raise (mkHTTPException 502
             "External service error: transcription: timed out").
Proof.
  assert (raises_at engine_down small ""
            (ExternalAPIError "transcription: timed out") Transcription) as Hr.
  { eapply raises_transcription; reflexivity. }
  split; [reflexivity|]. split; [exact Hr|].
  exact (C6_engine_failure_is_gateway_error engine_down small "" fresh
           Transcription "transcription: timed out" eq_refl Hr).
Defined.

(** The disk is full when the upload is written. *)
Lemma C7_witness :
  raises_at disk_full small "" (OtherException "No space left on device")
    Write ∧
  response disk_full small "" fresh =
    Raise (mkHTTPException 500 "Internal server error") ∧
  Log ERROR "Unexpected error"
    [("request_id", PyStr (uuid4 disk_full));
     ("error", PyStr "No space left on device")]
    ∈ request_events disk_full small "" fresh.
Proof.
  assert (raises_at disk_full small ""
            (OtherException "No space left on device") Write) as Hr.
  { eapply raises_write; reflexivity. }
  split; [exact Hr|].
  exact (C7_unexpected_error_is_generic disk_full small "" fresh Write
           "No space left on device" Hr).
Defined.

(** The scenario of the specification: "hello world", "ok", a score of 80
    with the reasoning "clear objectives". *)
Lemma C8_witness :
  all_stages_return all_well small "" "hello world" "ok" scores ∧
  scoring_contract scores ∧
  ∃ (z : Z) (why : string),
    dict_get scores "score" (PyInt 50) = PyInt z ∧
    dict_get scores "reasoning" (PyStr "Score generated") = PyStr why ∧
    response all_well small "" fresh =
      Ok (mkSuccessResponse (uuid4 all_well)
            (mkAnalysisResponse "ok" (PyInt z) (PyStr why)
               (round_ndigits
                  (fsub (time_time all_well (S (clock fresh)))
                     (time_time all_well (clock fresh)))
                  2))).
Proof.
  split; [by apply small_passes_all_stages|].
  split; [exact scores_meet_contract|].
  apply (C8_success_envelope all_well small "" fresh "hello world" "ok" scores).
  - by apply small_passes_all_stages.
  - exact scores_meet_contract.
Defined.

Lemma other_words_look_alike : same_low_view all_well other_words small "".
Proof.
  split; try reflexivity; intros; reflexivity.
Qed.

(** Two transcripts with the same five-character preview. *)
Lemma C9_witness :
  same_low_view all_well other_words small "" ∧
  List.filter is_log (request_events all_well small "" fresh) =
  List.filter is_log (request_events other_words small "" fresh).
Proof.
  split; [exact other_words_look_alike|].
  exact (C9_logs_see_only_sanitized_content all_well other_words small ""
           fresh other_words_look_alike).
Defined.

(** [open] refuses a path with a null byte. *)
Lemma C10_witness :
  raises_at bad_path small "" (ValueError "embedded null byte") Write ∧
  response bad_path small "" fresh =
    Raise (mkHTTPException 400 "embedded null byte").
Proof.
  assert (raises_at bad_path small "" (ValueError "embedded null byte") Write)
    as Hr.
  { eapply raises_write; reflexivity. }
  split; [exact Hr|].
  exact (C10_any_value_error_is_client_error bad_path small "" fresh Write
           "embedded null byte" Hr).
Defined.

Lemma tripped_is_reachable :
  Breaker.reachable breaker_config "transcription" (A:=string) tripped.
Proof.
  unfold tripped. do 2 apply Breaker.reachable_call.
  apply Breaker.reachable_initial.
Qed.

(** Three timeouts trip the circuit at time 5; a call at time 20 is refused,
    a call at time 40 that returns closes the circuit. *)
Lemma C3_witness :
  (1 ≤ Breaker.failure_threshold breaker_config)%nat ∧
  Breaker.reachable breaker_config "transcription" (A:=string) tripped ∧
  (Breaker.failure_threshold breaker_config
     ≤ Breaker.streak (Breaker.history tripped))%nat ∧
  Breaker.call breaker_config "transcription" back_up 20 tripped =
    (Raise (Breaker.circuit_open "transcription"), tripped) ∧
  ∃ b', Breaker.call breaker_config "transcription" back_up 40 tripped =
          (Ok "hello world", b') ∧
        Breaker.circuit_state b' = Breaker.Closed.
Proof.
  assert (1 ≤ Breaker.failure_threshold breaker_config)%nat as Hpos
    by (vm_compute; lia).
  assert (Breaker.failure_threshold breaker_config
            ≤ Breaker.streak (Breaker.history tripped))%nat as Hstreak
    by (vm_compute; lia).
  destruct (C3_circuit_breaker breaker_config "transcription" Hpos tripped
              tripped_is_reachable Hstreak) as [Hrefused Hprobe].
  split; [exact Hpos|]. split; [exact tripped_is_reachable|].
  split; [exact Hstreak|]. split.
  - apply Hrefused. vm_compute. lia.
  - destruct (Hprobe back_up 40%nat "hello world") as (b' & Hcall & Hclosed & _).
    + vm_compute. lia.
    + reflexivity.
    + exists b'. split; [exact Hcall | exact Hclosed].
Defined.

End Scenarios.

Section MoreScenarios.

Import Demo Cases.


(** The store refuses the temporary file. *)
Lemma X8_witness :
  validate store_down small = Ok tt ∧
  temp_stem store_down = Raise (OtherException "Permission denied") ∧
  List.filter is_file_event (request_events store_down small "" fresh) = [] ∧
  engine_calls (request_events store_down small "" fresh) = [].
Proof.
  split; [reflexivity|]. split; [reflexivity|].
  exact (X8_no_cleanup_without_temp_file store_down small "" fresh
           (OtherException "Permission denied") eq_refl eq_refl).
Defined.

(** The scoring engine returns an empty mapping. *)
Lemma X9_witness :
  all_stages_return no_fields small "" "hello world" "ok" ∅ ∧
  (∅ : gmap string pyval) !! "score" = None ∧
  Log INFO "Scoring completed"
    [("request_id", PyStr (uuid4 no_fields)); ("score", PyNone)]
    ∈ request_events no_fields small "" fresh ∧
  ∃ r, response no_fields small "" fresh = Ok r ∧
       pedagogical_score (data r) = PyInt 50.
Proof.
  split; [by apply small_passes_all_stages|]. split; [reflexivity|].
  apply (X9_absent_score_logged_as_none no_fields small "" fresh
           "hello world" "ok" ∅).
  - by apply small_passes_all_stages.
  - reflexivity.
Defined.

(** A [temp_path] that holds the empty string. *)
Lemma X10_witness :
  (temp_path empty_path = None ∨ temp_path empty_path = Some "") ∧
  files (snd (finally_block all_well "3f2b8c1e-rid" 0%Z empty_path))
    = files empty_path ∧
  List.filter is_file_event
    (drop (length (trace empty_path))
       (trace (snd (finally_block all_well "3f2b8c1e-rid" 0%Z empty_path))))
    = [].
Proof.
  split; [right; reflexivity|].
  exact (X10_finally_skips_falsy_path all_well "3f2b8c1e-rid" 0%Z empty_path
           (or_intror eq_refl)).
Defined.

End MoreScenarios.
